(** * errtypes: categorized errors and their HTTP status mapping

    A shallow embedding of package [errtypes] (the revision that defines the
    five categories BadInput, Unauthenticated, Forbidden, NotFound, Conflict
    and [HTTPStatusCode]), together with the two collaborators the package
    calls: [errors.Cause] of github.com/pkg/errors and [fmt.Sprintf]. *)

From Stdlib Require Import Bool List String Ascii ZArith DecimalString Lia.
Import ListNotations.

Local Open Scope string_scope.
Local Open Scope Z_scope.

(** ** Control flow: a Go call either returns or panics *)

Inductive outcome (A : Type) : Type :=
| Returned (a : A)
| Panicked (reason : string).

Arguments Returned {A} a.
Arguments Panicked {A} reason.

Definition bind {A B : Type} (m : outcome A) (k : A -> outcome B) : outcome B :=
  match m with
  | Returned a => k a
  | Panicked r => Panicked r
  end.

(** ** Error values *)

(** The marker methods a type of another package may declare.  [None]: the
    type has no such method, so the type assertion to the interface fails;
    [Some b]: the method exists and returns [b] (methods of other packages
    are taken to return, not to panic). *)
Record methods : Type := mkMethods {
  mIsBadInput        : option bool;
  mIsUnauthenticated : option bool;
  mIsForbidden       : option bool;
  mIsNotFound        : option bool;
  mIsConflict        : option bool
}.

Definition no_methods : methods := mkMethods None None None None None.

(** A value of Go's interface type [error].  [nil_error] is the nil
    interface.  The five [...Error] constructors are the struct types of the
    package, each with its field [s].  [fundamental], [withMessage] and
    [withStack] are the types of pkg/errors behind [errors.New],
    [errors.WithMessage] and [errors.WithStack].  [foreign] is a type of some
    other package without a [Cause] method, [foreignCauser] one with a
    [Cause] method that returns [cause].  Chains are finite by construction. *)
Inductive error : Type :=
| nil_error
| badInputError (s : string)
| unauthenticatedError (s : string)
| forbiddenError (s : string)
| notFoundError (s : string)
| conflictError (s : string)
| fundamental (msg : string)
| withMessage (cause : error) (msg : string)
| withStack (cause : error)
| foreign (ms : methods) (msg : string)
| foreignCauser (ms : methods) (cause : error) (msg : string).

Definition is_nil (err : error) : bool :=
  match err with
  | nil_error => true
  | _ => false
  end.

(** ** pkg/errors *)

(** [err.(causer)] followed by [cause.Cause()]: [Some c] when the dynamic
    type of [err] has a [Cause] method, which returns [c]. *)
Definition as_causer (err : error) : option error :=
  match err with
  | withMessage cause _ => Some cause
  | withStack cause => Some cause
  | foreignCauser _ cause _ => Some cause
  | _ => None
  end.

(** [errors.Cause]: [for err != nil { cause, ok := err.(causer); if !ok
    { break }; err = cause.Cause() }; return err]. *)
Fixpoint Cause (err : error) : error :=
  match err with
  | withMessage cause _ => Cause cause
  | withStack cause => Cause cause
  | foreignCauser _ cause _ => Cause cause
  | _ => err
  end.

(** The number of [Cause()] method calls the loop of [errors.Cause] makes. *)
Fixpoint Cause_calls (err : error) : nat :=
  match err with
  | withMessage cause _ => S (Cause_calls cause)
  | withStack cause => S (Cause_calls cause)
  | foreignCauser _ cause _ => S (Cause_calls cause)
  | _ => O
  end.

(** [errors.New], [errors.WithMessage] and [errors.Wrap]; the last two hand
    a nil error back unwrapped. *)
Definition errors_New (msg : string) : error := fundamental msg.

Definition errors_WithMessage (err : error) (msg : string) : error :=
  if is_nil err then nil_error else withMessage err msg.

Definition errors_Wrap (err : error) (msg : string) : error :=
  if is_nil err then nil_error else withStack (withMessage err msg).

(** ** The marker interfaces *)

(** [v, ok := err.(BadInput)] followed by [v.IsBadInput()]: [None] when the
    assertion fails ([ok] false), otherwise the result of the method. *)
Definition as_BadInput (err : error) : option bool :=
  match err with
  | badInputError _ => Some true
  | foreign ms _ => mIsBadInput ms
  | foreignCauser ms _ _ => mIsBadInput ms
  | _ => None
  end.

Definition as_Unauthenticated (err : error) : option bool :=
  match err with
  | unauthenticatedError _ => Some true
  | foreign ms _ => mIsUnauthenticated ms
  | foreignCauser ms _ _ => mIsUnauthenticated ms
  | _ => None
  end.

Definition as_Forbidden (err : error) : option bool :=
  match err with
  | forbiddenError _ => Some true
  | foreign ms _ => mIsForbidden ms
  | foreignCauser ms _ _ => mIsForbidden ms
  | _ => None
  end.

Definition as_NotFound (err : error) : option bool :=
  match err with
  | notFoundError _ => Some true
  | foreign ms _ => mIsNotFound ms
  | foreignCauser ms _ _ => mIsNotFound ms
  | _ => None
  end.

Definition as_Conflict (err : error) : option bool :=
  match err with
  | conflictError _ => Some true
  | foreign ms _ => mIsConflict ms
  | foreignCauser ms _ _ => mIsConflict ms
  | _ => None
  end.

(** [return ok && v.IsX()] *)
Definition ok_and (r : option bool) : bool :=
  match r with
  | Some b => b
  | None => false
  end.

(** ** Package errtypes *)

Definition IsBadInput (err : error) : bool := ok_and (as_BadInput (Cause err)).
Definition NewBadInput (s : string) : error := badInputError s.

Definition IsUnauthenticated (err : error) : bool :=
  ok_and (as_Unauthenticated (Cause err)).
Definition NewUnauthenticated (s : string) : error := unauthenticatedError s.

Definition IsForbidden (err : error) : bool := ok_and (as_Forbidden (Cause err)).
Definition NewForbidden (s : string) : error := forbiddenError s.

Definition IsNotFound (err : error) : bool := ok_and (as_NotFound (Cause err)).
Definition NewNotFound (s : string) : error := notFoundError s.

Definition IsConflict (err : error) : bool := ok_and (as_Conflict (Cause err)).
Definition NewConflict (s : string) : error := conflictError s.

(** The method [Error] of each type.  On the nil interface the call panics;
    [withMessage] prints its message before its cause's. *)
Fixpoint Error (e : error) : outcome string :=
  match e with
  | nil_error => Panicked "invalid memory address or nil pointer dereference"
  | badInputError s => Returned s
  | unauthenticatedError s => Returned s
  | forbiddenError s => Returned s
  | notFoundError s => Returned s
  | conflictError s => Returned s
  | fundamental msg => Returned msg
  | withMessage cause msg =>
      bind (Error cause) (fun c => Returned (msg ++ ": " ++ c))
  | withStack cause => Error cause
  | foreign _ msg => Returned msg
  | foreignCauser _ _ msg => Returned msg
  end.

Definition HTTPStatusCode (err : error) : outcome Z :=
  if is_nil err then Panicked "called with nil error"
  else if IsBadInput err then Returned 400
  else if IsUnauthenticated err then Returned 401
  else if IsForbidden err then Returned 403
  else if IsNotFound err then Returned 404
  else if IsConflict err then Returned 409
  else Returned 500.

(** ** Categories, to quantify over the five families of functions *)

Inductive Category : Type :=
| BadInput | Unauthenticated | Forbidden | NotFound | Conflict.

Definition Category_eqb (c d : Category) : bool :=
  match c, d with
  | BadInput, BadInput
  | Unauthenticated, Unauthenticated
  | Forbidden, Forbidden
  | NotFound, NotFound
  | Conflict, Conflict => true
  | _, _ => false
  end.

(** [New c] is the constructor [NewC] and [Is c] the predicate [IsC]. *)
Definition New (c : Category) : string -> error :=
  match c with
  | BadInput => NewBadInput
  | Unauthenticated => NewUnauthenticated
  | Forbidden => NewForbidden
  | NotFound => NewNotFound
  | Conflict => NewConflict
  end.

Definition Is (c : Category) : error -> bool :=
  match c with
  | BadInput => IsBadInput
  | Unauthenticated => IsUnauthenticated
  | Forbidden => IsForbidden
  | NotFound => IsNotFound
  | Conflict => IsConflict
  end.

(** The mapping table of the specification, and the rule it gives for
    [HTTPStatusCode]: the code of the first category, in the order of the
    table, whose predicate holds, and 500 when none does.  This definition
    follows the specification; [HTTPStatusCode] above follows the code. *)
Definition status_of (c : Category) : Z :=
  match c with
  | BadInput => 400
  | Unauthenticated => 401
  | Forbidden => 403
  | NotFound => 404
  | Conflict => 409
  end.

Definition priority : list Category :=
  [BadInput; Unauthenticated; Forbidden; NotFound; Conflict].

Definition first_match (err : error) : Z :=
  match find (fun c => Is c err) priority with
  | Some c => status_of c
  | None => 500
  end.

Definition status_codes : list Z := [400; 401; 403; 404; 409; 500].

(** ** Wrapping layers *)

(** One layer that keeps its cause behind a [Cause] method: those of
    pkg/errors, or a type of another package (whatever marker methods it
    declares itself). *)
Inductive layer : Type :=
| viaWithMessage (msg : string)
| viaWithStack
| viaForeign (ms : methods) (msg : string).

Definition add_layer (l : layer) (err : error) : error :=
  match l with
  | viaWithMessage msg => withMessage err msg
  | viaWithStack => withStack err
  | viaForeign ms msg => foreignCauser ms err msg
  end.

(** The head of the list is the outermost layer. *)
Definition wrap_layers (ls : list layer) (err : error) : error :=
  fold_right add_layer err ls.

(** ** Formatting *)

(** The operands passed through [...interface{}]: strings and ints (an
    [ArgInt z] stands for a Go [int], so [z] is within its range). *)
Inductive arg : Type :=
| ArgString (s : string)
| ArgInt (z : Z).

Definition formatInt (z : Z) : string := NilZero.string_of_int (Z.to_int z).

(** One verb of [fmt] applied to one operand, for the verbs [%s], [%d] and
    [%v] on an operand of the matching type; [None] elsewhere. *)
Definition printArg (verb : ascii) (a : arg) : option string :=
  match a with
  | ArgString s =>
      if (Ascii.eqb verb "s" || Ascii.eqb verb "v")%bool then Some s else None
  | ArgInt z =>
      if (Ascii.eqb verb "d" || Ascii.eqb verb "v")%bool then Some (formatInt z)
      else None
  end.

(** [fmt.Sprintf] on the fragment without flags, width or precision: plain
    text is copied, [%%] prints a percent sign, a verb consumes the next
    operand.  [None] outside this fragment (other verbs, missing or extra
    operands), where the real function prints more than is modelled here. *)
Fixpoint doPrintf (format : string) (a : list arg) : option string :=
  match format with
  | EmptyString =>
      match a with
      | [] => Some EmptyString
      | _ :: _ => None
      end
  | String c rest =>
      if Ascii.eqb c "%" then
        match rest with
        | EmptyString => None
        | String verb rest' =>
            if Ascii.eqb verb "%" then option_map (String "%") (doPrintf rest' a)
            else
              match a with
              | [] => None
              | x :: a' =>
                  match printArg verb x with
                  | Some s => option_map (append s) (doPrintf rest' a')
                  | None => None
                  end
              end
        end
      else option_map (String c) (doPrintf rest a)
  end.

(** A formatting function is standard when it agrees with [doPrintf]
    wherever that is defined. *)
Definition standard (Sprintf : string -> list arg -> string) : Prop :=
  forall format a r, doPrintf format a = Some r -> Sprintf format a = r.

(** A total function that is standard, to run the constructors with. *)
Definition Sprintf_model (format : string) (a : list arg) : string :=
  match doPrintf format a with
  | Some r => r
  | None => EmptyString
  end.

Section Formatting.

(** [fmt.Sprintf], of the Go standard library. *)
Variable Sprintf : string -> list arg -> string.

Definition NewBadInputf (s : string) (i : list arg) : error :=
  badInputError (Sprintf s i).

Definition NewUnauthenticatedf (s : string) (args : list arg) : error :=
  unauthenticatedError (Sprintf s args).

Definition NewForbiddenf (s : string) (i : list arg) : error :=
  forbiddenError (Sprintf s i).

Definition NewNotFoundf (s : string) (i : list arg) : error :=
  notFoundError (Sprintf s i).

Definition NewConflictf (s : string) (i : list arg) : error :=
  conflictError (Sprintf s i).

(** [Newf c] is the constructor [NewCf]. *)
Definition Newf (c : Category) : string -> list arg -> error :=
  match c with
  | BadInput => NewBadInputf
  | Unauthenticated => NewUnauthenticatedf
  | Forbidden => NewForbiddenf
  | NotFound => NewNotFoundf
  | Conflict => NewConflictf
  end.

End Formatting.

(** ** Vocabulary for the further properties *)

(** The place of a category in the cascade of [HTTPStatusCode]. *)
Definition rank (c : Category) : nat :=
  match c with
  | BadInput => 0
  | Unauthenticated => 1
  | Forbidden => 2
  | NotFound => 3
  | Conflict => 4
  end.

(** The root of the chain is a value of a type of another package, the
    only values whose marker methods this package does not define. *)
Definition foreign_root (err : error) : bool :=
  match Cause err with
  | foreign _ _ => true
  | foreignCauser _ _ _ => true
  | _ => false
  end.

(** The format holds no percent sign, so no verb. *)
Fixpoint no_percent (format : string) : bool :=
  match format with
  | EmptyString => true
  | String c rest => (negb (Ascii.eqb c "%") && no_percent rest)%bool
  end.

Example doPrintf_a1 :
  doPrintf "%s-%d" [ArgString "a"; ArgInt 1] = Some "a-1".
Proof. reflexivity. Qed.

Example doPrintf_neg : doPrintf "n=%d%%" [ArgInt (-42)] = Some "n=-42%".
Proof. reflexivity. Qed.

Example doPrintf_zero : doPrintf "%v/%v" [ArgInt 0; ArgString "x"] = Some "0/x".
Proof. reflexivity. Qed.

(** * Properties *)

(** ** The root of a chain *)

Lemma Category_eqb_eq (c d : Category) : Category_eqb c d = true <-> c = d.
Proof. destruct c, d; simpl; split; intro H; congruence. Qed.

Lemma Category_eqb_neq (c d : Category) : c <> d -> Category_eqb c d = false.
Proof.
  intro H. destruct (Category_eqb c d) eqn:E; [|reflexivity].
  apply Category_eqb_eq in E. contradiction.
Qed.

(** The loop of [errors.Cause], one iteration at a time. *)
Lemma Cause_unfold (err : error) :
  Cause err = match as_causer err with
              | Some cause => Cause cause
              | None => err
              end.
Proof. destruct err; reflexivity. Qed.

(** What [errors.Cause] returns has no [Cause] method left to call. *)
Lemma Cause_root (err : error) : as_causer (Cause err) = None.
Proof. induction err; simpl; auto. Qed.

Lemma Cause_idempotent (err : error) : Cause (Cause err) = Cause err.
Proof. induction err; simpl; auto. Qed.

Lemma Cause_add_layer (l : layer) (err : error) :
  Cause (add_layer l err) = Cause err.
Proof. destruct l; reflexivity. Qed.

Lemma Cause_wrap_layers (ls : list layer) (err : error) :
  Cause (wrap_layers ls err) = Cause err.
Proof.
  induction ls as [|l ls IH]; simpl.
  - reflexivity.
  - rewrite Cause_add_layer. exact IH.
Qed.

Lemma Cause_calls_wrap_layers (ls : list layer) (err : error) :
  Cause_calls (wrap_layers ls err) = (List.length ls + Cause_calls err)%nat.
Proof.
  induction ls as [|l ls IH]; simpl; [reflexivity|].
  destruct l; simpl; rewrite IH; reflexivity.
Qed.

Lemma Cause_New (c : Category) (s : string) : Cause (New c s) = New c s.
Proof. destruct c; reflexivity. Qed.

(** Every predicate looks at the root only. *)
Lemma Is_Cause (c : Category) (err : error) : Is c (Cause err) = Is c err.
Proof.
  destruct c; simpl;
    unfold IsBadInput, IsUnauthenticated, IsForbidden, IsNotFound, IsConflict;
    rewrite Cause_idempotent; reflexivity.
Qed.

Lemma Is_wrap_layers (c : Category) (ls : list layer) (err : error) :
  Is c (wrap_layers ls err) = Is c err.
Proof.
  rewrite <- (Is_Cause c (wrap_layers ls err)), Cause_wrap_layers.
  apply Is_Cause.
Qed.

Lemma Is_New (d c : Category) (s : string) : Is d (New c s) = Category_eqb d c.
Proof. destruct d, c; reflexivity. Qed.

Lemma wrap_layers_not_nil (ls : list layer) (err : error) :
  is_nil err = false -> is_nil (wrap_layers ls err) = false.
Proof. intro H. destruct ls as [|[] ls]; simpl; auto. Qed.

Lemma is_nil_false (err : error) : err <> nil_error -> is_nil err = false.
Proof. destruct err; simpl; congruence. Qed.

(** ** The status mapping *)

Lemma HTTPStatusCode_first_match (err : error) :
  is_nil err = false -> HTTPStatusCode err = Returned (first_match err).
Proof.
  intro Hnil. unfold HTTPStatusCode, first_match, priority. rewrite Hnil.
  simpl find.
  destruct (IsBadInput err); [reflexivity|].
  destruct (IsUnauthenticated err); [reflexivity|].
  destruct (IsForbidden err); [reflexivity|].
  destruct (IsNotFound err); [reflexivity|].
  destruct (IsConflict err); reflexivity.
Qed.

Lemma first_match_none (err : error) :
  (forall c, Is c err = false) -> first_match err = 500.
Proof.
  intro H. unfold first_match, priority.
  cbn [find]. rewrite !H. reflexivity.
Qed.

Lemma first_match_in_codes (err : error) : In (first_match err) status_codes.
Proof.
  unfold first_match.
  destruct (find (fun c => Is c err) priority) as [c|]; simpl.
  - destruct c; simpl; tauto.
  - tauto.
Qed.

Lemma first_match_wrap_layers (ls : list layer) (err : error) :
  first_match (wrap_layers ls err) = first_match err.
Proof.
  unfold first_match, priority.
  cbn [find]. rewrite !Is_wrap_layers. reflexivity.
Qed.

Lemma HTTPStatusCode_New (c : Category) (s : string) :
  HTTPStatusCode (New c s) = Returned (status_of c).
Proof. destruct c; reflexivity. Qed.

(** ** The claims *)

(** C1: for every category [c], message [s] and chain [ls] of layers that
    keep their cause behind a [Cause] method, [Is c] holds of the wrapped
    [New c s] and the predicate of every other category does not; more
    generally no predicate changes its answer under wrapping, because it
    tests the root that [errors.Cause] resolves. *)
Theorem Is_wrapped_New (c : Category) (s : string) (ls : list layer) :
  Is c (wrap_layers ls (New c s)) = true /\
  (forall d, d <> c -> Is d (wrap_layers ls (New c s)) = false) /\
  (forall d err, Is d (wrap_layers ls err) = Is d err) /\
  Cause (wrap_layers ls (New c s)) = New c s.
Proof.
  repeat split.
  - rewrite Is_wrap_layers, Is_New. apply Category_eqb_eq. reflexivity.
  - intros d Hd. rewrite Is_wrap_layers, Is_New.
    apply Category_eqb_neq. exact Hd.
  - intros d err. apply Is_wrap_layers.
  - rewrite Cause_wrap_layers. apply Cause_New.
Qed.

(** The example of the specification: [errors.Wrap] puts a [withStack] over
    a [withMessage]; a further [errors.WithMessage] changes nothing. *)
Lemma Is_wrapped_New_witness :
  IsNotFound
    (errors_WithMessage
       (errors_Wrap (NewNotFound "missing") "while loading config")
       "startup") = true /\
  IsBadInput
    (errors_WithMessage
       (errors_Wrap (NewNotFound "missing") "while loading config")
       "startup") = false.
Proof.
  pose proof (Is_wrapped_New NotFound "missing"
                [viaWithMessage "startup"; viaWithStack;
                 viaWithMessage "while loading config"]) as [H1 [H2 _]].
  split.
  - exact H1.
  - apply (H2 BadInput). discriminate.
Defined.

(** C2: on a non-nil error [HTTPStatusCode] returns the code of the first
    category, in the order BadInput, Unauthenticated, Forbidden, NotFound,
    Conflict, whose predicate holds, and 500 when none holds of the root;
    an error of [errors.New] gets 500. *)
Theorem HTTPStatusCode_priority (err : error) :
  err <> nil_error ->
  HTTPStatusCode err = Returned (first_match err) /\
  ((forall c, Is c (Cause err) = false) -> HTTPStatusCode err = Returned 500) /\
  (forall msg ls,
     HTTPStatusCode (wrap_layers ls (errors_New msg)) = Returned 500 /\
     HTTPStatusCode (wrap_layers ls (foreign no_methods msg)) = Returned 500).
Proof.
  intro Hnil. apply is_nil_false in Hnil. repeat split.
  - apply HTTPStatusCode_first_match. exact Hnil.
  - intro Hnone. rewrite (HTTPStatusCode_first_match err Hnil).
    rewrite first_match_none; [reflexivity|].
    intro c. rewrite <- Is_Cause. apply Hnone.
  - rewrite HTTPStatusCode_first_match.
    + rewrite first_match_wrap_layers. reflexivity.
    + apply wrap_layers_not_nil. reflexivity.
  - rewrite HTTPStatusCode_first_match.
    + rewrite first_match_wrap_layers. reflexivity.
    + apply wrap_layers_not_nil. reflexivity.
Qed.

(** A root of another package that answers true to both Unauthenticated and
    NotFound, and false to BadInput: the earlier category decides. *)
Lemma HTTPStatusCode_priority_witness :
  withStack
    (foreign (mkMethods (Some false) (Some true) None (Some true) None)
       "gone") <> nil_error /\
  HTTPStatusCode
    (withStack
       (foreign (mkMethods (Some false) (Some true) None (Some true) None)
          "gone")) = Returned 401.
Proof.
  split; [discriminate|].
  refine (proj1 (HTTPStatusCode_priority
                   (withStack
                      (foreign
                         (mkMethods (Some false) (Some true) None (Some true)
                            None) "gone")) _)).
  discriminate.
Defined.

(** C3: on the nil error [HTTPStatusCode] panics, with the message of the
    source, and returns no status code at all. *)
Theorem HTTPStatusCode_nil_panics :
  HTTPStatusCode nil_error = Panicked "called with nil error" /\
  forall code, HTTPStatusCode nil_error <> Returned code.
Proof. split; [reflexivity | intros code H; discriminate H]. Qed.

(** C4: the status code of each constructor's error, for every message:
    400, 401, 403, 404 and 409. *)
Theorem HTTPStatusCode_constructors (s : string) :
  HTTPStatusCode (NewBadInput s) = Returned 400 /\
  HTTPStatusCode (NewUnauthenticated s) = Returned 401 /\
  HTTPStatusCode (NewForbidden s) = Returned 403 /\
  HTTPStatusCode (NewNotFound s) = Returned 404 /\
  HTTPStatusCode (NewConflict s) = Returned 409.
Proof. repeat split. Qed.

(** C5: a constructed error carries its own category and no other. *)
Theorem Is_New_exactly (c : Category) (s : string) :
  Is c (New c s) = true /\
  forall d, d <> c -> Is d (New c s) = false.
Proof.
  split.
  - rewrite Is_New. apply Category_eqb_eq. reflexivity.
  - intros d Hd. rewrite Is_New. apply Category_eqb_neq. exact Hd.
Qed.

Lemma Is_New_exactly_witness :
  IsConflict (NewConflict "taken") = true /\
  IsNotFound (NewConflict "taken") = false.
Proof.
  split.
  - exact (proj1 (Is_New_exactly Conflict "taken")).
  - apply (proj2 (Is_New_exactly Conflict "taken") NotFound). discriminate.
Defined.

(** C6: the error of every constructor renders to exactly the message it
    was given, the empty message included. *)
Theorem Error_New (c : Category) (s : string) :
  Error (New c s) = Returned s.
Proof. destruct c; reflexivity. Qed.

(** C7: a formatting constructor stores what [fmt.Sprintf] makes of the
    format and the operands; with standard substitution, the format "%s-%d"
    applied to "a" and 1 renders as "a-1", for every category. *)
Theorem Error_Newf (Sprintf : string -> list arg -> string) (c : Category) :
  standard Sprintf ->
  (forall format args,
     Error (Newf Sprintf c format args) = Returned (Sprintf format args)) /\
  Error (Newf Sprintf c "%s-%d" [ArgString "a"; ArgInt 1]) = Returned "a-1".
Proof.
  intro Hstd.
  assert (Hgen : forall format args,
             Error (Newf Sprintf c format args)
             = Returned (Sprintf format args)).
  { intros format args. destruct c; reflexivity. }
  split; [exact Hgen|].
  rewrite Hgen. f_equal. apply Hstd. reflexivity.
Qed.

Lemma Sprintf_model_standard : standard Sprintf_model.
Proof. intros format a r H. unfold Sprintf_model. rewrite H. reflexivity. Qed.

Lemma Error_Newf_witness :
  standard Sprintf_model /\
  Error (NewConflictf Sprintf_model "%s-%d" [ArgString "a"; ArgInt 1])
  = Returned "a-1".
Proof.
  split; [exact Sprintf_model_standard|].
  exact (proj2 (Error_Newf Sprintf_model Conflict Sprintf_model_standard)).
Defined.

(** C8: every predicate is false on the nil error, and [errors.Cause]
    calls no [Cause] method for it: it hands the nil error back. *)
Theorem Is_nil_false (c : Category) :
  Is c nil_error = false /\
  Cause_calls nil_error = 0%nat /\
  Cause nil_error = nil_error.
Proof. destruct c; repeat split. Qed.

(** C9: on a non-nil error [HTTPStatusCode] returns, and what it returns
    is one of 400, 401, 403, 404, 409, 500. *)
Theorem HTTPStatusCode_range (err : error) :
  err <> nil_error ->
  (exists code, HTTPStatusCode err = Returned code) /\
  (forall code, HTTPStatusCode err = Returned code -> In code status_codes).
Proof.
  intro Hnil. apply is_nil_false in Hnil.
  rewrite (HTTPStatusCode_first_match err Hnil). split.
  - exists (first_match err). reflexivity.
  - intros code H. injection H as <-. apply first_match_in_codes.
Qed.

Lemma HTTPStatusCode_range_witness :
  withMessage (NewForbidden "no") "ctx" <> nil_error /\
  HTTPStatusCode (withMessage (NewForbidden "no") "ctx") = Returned 403 /\
  In 403 status_codes.
Proof.
  split; [discriminate|]. split; [reflexivity|].
  apply (proj2 (HTTPStatusCode_range
                  (withMessage (NewForbidden "no") "ctx")
                  ltac:(discriminate)) 403).
  reflexivity.
Defined.

(** C10: the predicates and the status code of a constructed error depend
    on the constructor only, not on the message. *)
Theorem message_independence (c d : Category) (s t : string) :
  Is c (New d s) = Is c (New d t) /\
  HTTPStatusCode (New d s) = HTTPStatusCode (New d t).
Proof.
  split.
  - rewrite !Is_New. reflexivity.
  - rewrite !HTTPStatusCode_New. reflexivity.
Qed.

(** ** Further properties of the predicates and of the status mapping *)

Lemma rank_priority (c : Category) : nth_error priority (rank c) = Some c.
Proof. destruct c; reflexivity. Qed.

Lemma status_of_inj (c d : Category) : status_of c = status_of d -> c = d.
Proof. destruct c, d; simpl; intro H; congruence. Qed.

Lemma status_of_not_500 (c : Category) : status_of c <> 500.
Proof. destruct c; simpl; lia. Qed.

Lemma Is_on_nil (c : Category) : Is c nil_error = false.
Proof. destruct c; reflexivity. Qed.

Lemma is_nil_true (err : error) : is_nil err = true -> err = nil_error.
Proof. destruct err; simpl; congruence. Qed.

Lemma Is_same_root (c : Category) (e1 e2 : error) :
  Cause e1 = Cause e2 -> Is c e1 = Is c e2.
Proof.
  intro H. rewrite <- (Is_Cause c e1), <- (Is_Cause c e2), H. reflexivity.
Qed.

Lemma first_match_same_root (e1 e2 : error) :
  Cause e1 = Cause e2 -> first_match e1 = first_match e2.
Proof.
  intro H. unfold first_match, priority. cbn [find].
  rewrite !(fun c => Is_same_root c e1 e2 H). reflexivity.
Qed.

Lemma doPrintf_no_percent (format : string) :
  no_percent format = true -> doPrintf format [] = Some format.
Proof.
  induction format as [|c rest IH]; simpl; [reflexivity|].
  intro H. apply andb_prop in H as [Hc Hrest].
  apply negb_true_iff in Hc. rewrite Hc, (IH Hrest). reflexivity.
Qed.

(** X1: wrapping a non-nil error in any number of layers does not change
    its status code. *)
Theorem HTTPStatusCode_wrap_layers (ls : list layer) (err : error) :
  err <> nil_error ->
  HTTPStatusCode (wrap_layers ls err) = HTTPStatusCode err.
Proof.
  intro Hnil. apply is_nil_false in Hnil.
  rewrite !HTTPStatusCode_first_match;
    [|exact Hnil|apply wrap_layers_not_nil; exact Hnil].
  rewrite first_match_wrap_layers. reflexivity.
Qed.

Lemma HTTPStatusCode_wrap_layers_witness :
  NewConflict "taken" <> nil_error /\
  HTTPStatusCode
    (wrap_layers [viaWithStack; viaForeign no_methods "rpc"; viaWithMessage "db"]
       (NewConflict "taken")) = Returned 409.
Proof.
  split; [discriminate|].
  rewrite (HTTPStatusCode_wrap_layers
             [viaWithStack; viaForeign no_methods "rpc"; viaWithMessage "db"]
             (NewConflict "taken")); [reflexivity | discriminate].
Defined.

(** X2: [errors.Wrap] and [errors.WithMessage] change neither a predicate
    nor the outcome of [HTTPStatusCode], for every error: they hand a nil
    error back as nil, so the panic on nil is kept too. *)
Theorem pkg_wrappers_transparent (err : error) (msg : string) :
  (forall c, Is c (errors_Wrap err msg) = Is c err) /\
  (forall c, Is c (errors_WithMessage err msg) = Is c err) /\
  HTTPStatusCode (errors_Wrap err msg) = HTTPStatusCode err /\
  HTTPStatusCode (errors_WithMessage err msg) = HTTPStatusCode err.
Proof.
  unfold errors_Wrap, errors_WithMessage.
  destruct (is_nil err) eqn:Hnil.
  - apply is_nil_true in Hnil. subst err. repeat split.
  - repeat split.
    + intro c. apply (Is_wrap_layers c [viaWithStack; viaWithMessage msg]).
    + intro c. apply (Is_wrap_layers c [viaWithMessage msg]).
    + rewrite !HTTPStatusCode_first_match by (assumption || reflexivity).
      apply f_equal, first_match_same_root. reflexivity.
    + rewrite !HTTPStatusCode_first_match by (assumption || reflexivity).
      apply f_equal, first_match_same_root. reflexivity.
Qed.

(** X3: two errors whose chains end in the same root get the same answer
    from every predicate and, when both are non-nil, the same status
    code. *)
Theorem same_root_same_class (e1 e2 : error) :
  Cause e1 = Cause e2 ->
  (forall c, Is c e1 = Is c e2) /\
  (e1 <> nil_error -> e2 <> nil_error ->
   HTTPStatusCode e1 = HTTPStatusCode e2).
Proof.
  intro H. split.
  - intro c. apply Is_same_root. exact H.
  - intros H1 H2. apply is_nil_false in H1. apply is_nil_false in H2.
    rewrite !HTTPStatusCode_first_match by assumption.
    rewrite (first_match_same_root e1 e2 H). reflexivity.
Qed.

Lemma same_root_same_class_witness :
  Cause (withStack (NewForbidden "no")) =
  Cause (foreignCauser (mkMethods (Some true) None None None None)
           (NewForbidden "no") "outer") /\
  IsBadInput (foreignCauser (mkMethods (Some true) None None None None)
                (NewForbidden "no") "outer") = false /\
  HTTPStatusCode (foreignCauser (mkMethods (Some true) None None None None)
                    (NewForbidden "no") "outer") = Returned 403.
Proof.
  pose proof (same_root_same_class
                (withStack (NewForbidden "no"))
                (foreignCauser (mkMethods (Some true) None None None None)
                   (NewForbidden "no") "outer") eq_refl) as [HIs Hcode].
  split; [reflexivity|]. split.
  - exact (eq_trans (eq_sym (HIs BadInput)) eq_refl).
  - rewrite <- Hcode; [reflexivity | discriminate | discriminate].
Defined.

(** X4: [HTTPStatusCode] answers 500 exactly for the non-nil errors of
    which no predicate holds. *)
Theorem HTTPStatusCode_500_iff (err : error) :
  HTTPStatusCode err = Returned 500 <->
  err <> nil_error /\ forall c, Is c err = false.
Proof.
  split.
  - intro H. destruct (is_nil err) eqn:Hnil.
    + unfold HTTPStatusCode in H. rewrite Hnil in H. discriminate H.
    + split; [intro E; subst err; discriminate Hnil|].
      unfold HTTPStatusCode in H. rewrite Hnil in H.
      destruct (IsBadInput err) eqn:E1; [discriminate H|].
      destruct (IsUnauthenticated err) eqn:E2; [discriminate H|].
      destruct (IsForbidden err) eqn:E3; [discriminate H|].
      destruct (IsNotFound err) eqn:E4; [discriminate H|].
      destruct (IsConflict err) eqn:E5; [discriminate H|].
      intro c. destruct c; assumption.
  - intros [Hnil Hnone]. apply is_nil_false in Hnil.
    rewrite (HTTPStatusCode_first_match err Hnil).
    rewrite (first_match_none err Hnone). reflexivity.
Qed.

(** Rewrite away the test of category [d] when [H] says that it fails. *)
Ltac skip_earlier H d :=
  let Hd := fresh "Hd" in
  pose proof (H d) as Hd; simpl in Hd; try rewrite Hd by lia; clear Hd.

(** X5: [HTTPStatusCode] answers the code of category [c] exactly when
    [Is c] holds and the predicate of no category tested before [c] does. *)
Theorem HTTPStatusCode_status_of_iff (err : error) (c : Category) :
  HTTPStatusCode err = Returned (status_of c) <->
  Is c err = true /\ forall d, (rank d < rank c)%nat -> Is d err = false.
Proof.
  split.
  - intro H. destruct (is_nil err) eqn:Hnil.
    + unfold HTTPStatusCode in H. rewrite Hnil in H. discriminate H.
    + unfold HTTPStatusCode in H. rewrite Hnil in H.
      destruct (IsBadInput err) eqn:E1;
        [|destruct (IsUnauthenticated err) eqn:E2;
          [|destruct (IsForbidden err) eqn:E3;
            [|destruct (IsNotFound err) eqn:E4;
              [|destruct (IsConflict err) eqn:E5]]]];
        destruct c; simpl in H; try discriminate H;
        (split; [assumption|]);
        intros d Hd; destruct d; simpl in Hd; try lia; assumption.
  - intros [Hc Hbefore].
    assert (Hnil : is_nil err = false).
    { destruct err; try reflexivity. rewrite Is_on_nil in Hc. discriminate Hc. }
    unfold HTTPStatusCode. rewrite Hnil.
    destruct c; simpl in Hc;
      skip_earlier Hbefore BadInput; skip_earlier Hbefore Unauthenticated;
      skip_earlier Hbefore Forbidden; skip_earlier Hbefore NotFound;
      rewrite Hc; reflexivity.
Qed.

(** X6: the error of a formatting constructor carries the category of the
    constructor and gets its status code, whatever the format, the operands
    and the formatted text are, also under wrapping layers. *)
Theorem Newf_category (Sprintf : string -> list arg -> string)
    (c : Category) (format : string) (args : list arg) (ls : list layer) :
  (forall d,
     Is d (wrap_layers ls (Newf Sprintf c format args)) = Category_eqb d c) /\
  HTTPStatusCode (wrap_layers ls (Newf Sprintf c format args))
  = Returned (status_of c).
Proof.
  assert (E : Newf Sprintf c format args = New c (Sprintf format args))
    by (destruct c; reflexivity).
  rewrite E. split.
  - intro d. rewrite Is_wrap_layers. apply Is_New.
  - rewrite HTTPStatusCode_first_match.
    + rewrite first_match_wrap_layers. destruct c; reflexivity.
    + apply wrap_layers_not_nil. destruct c; reflexivity.
Qed.

(** X7: with a format that holds no percent sign and no operands, a
    formatting constructor builds the very error of the plain constructor. *)
Theorem Newf_plain_format (Sprintf : string -> list arg -> string)
    (c : Category) (format : string) :
  standard Sprintf ->
  no_percent format = true ->
  Newf Sprintf c format [] = New c format.
Proof.
  intros Hstd Hplain.
  pose proof (Hstd format [] format (doPrintf_no_percent format Hplain)) as E.
  destruct c; simpl;
    unfold NewBadInputf, NewUnauthenticatedf, NewForbiddenf, NewNotFoundf,
      NewConflictf, NewBadInput, NewUnauthenticated, NewForbidden,
      NewNotFound, NewConflict;
    rewrite E; reflexivity.
Qed.

Lemma Newf_plain_format_witness :
  standard Sprintf_model /\
  no_percent "user not found" = true /\
  NewNotFoundf Sprintf_model "user not found" [] = NewNotFound "user not found".
Proof.
  split; [exact Sprintf_model_standard|]. split; [reflexivity|].
  exact (Newf_plain_format Sprintf_model NotFound "user not found"
           Sprintf_model_standard eq_refl).
Defined.

(** X8: the status codes of two constructed errors agree exactly when the
    same constructor built them: the code identifies the category. *)
Theorem HTTPStatusCode_New_inj (c d : Category) (s t : string) :
  HTTPStatusCode (New c s) = HTTPStatusCode (New d t) <-> c = d.
Proof.
  rewrite !HTTPStatusCode_New. split.
  - intro H. injection H as H. apply status_of_inj. exact H.
  - intros ->. reflexivity.
Qed.

(** X9: when the root of the chain is not a value of another package's
    type, at most one predicate holds of the error, and the status code is
    that of category [c] exactly when [Is c] holds. *)
Theorem own_root_one_category (err : error) :
  foreign_root err = false ->
  (forall c d, Is c err = true -> Is d err = true -> c = d) /\
  (forall c, HTTPStatusCode err = Returned (status_of c) <-> Is c err = true).
Proof.
  intro Hown.
  assert (Hone : forall c d, Is c err = true -> Is d err = true -> c = d).
  { unfold foreign_root in Hown. intros c d.
    destruct c, d; simpl;
      unfold IsBadInput, IsUnauthenticated, IsForbidden, IsNotFound,
        IsConflict;
      destruct (Cause err); simpl; congruence. }
  split; [exact Hone|].
  intro c. unfold foreign_root in Hown. unfold HTTPStatusCode.
  destruct (is_nil err) eqn:Hnil.
  - apply is_nil_true in Hnil. subst err. rewrite Is_on_nil.
    split; intro H; discriminate H.
  - destruct c; simpl;
      unfold IsBadInput, IsUnauthenticated, IsForbidden, IsNotFound,
        IsConflict;
      destruct (Cause err); simpl; try discriminate Hown;
      split; intro H; (reflexivity || discriminate H).
Qed.

Lemma own_root_one_category_witness :
  foreign_root (withMessage (NewUnauthenticated "token") "api") = false /\
  (HTTPStatusCode (withMessage (NewUnauthenticated "token") "api")
   = Returned 401 <->
   IsUnauthenticated (withMessage (NewUnauthenticated "token") "api") = true).
Proof.
  split; [reflexivity|].
  exact (proj2 (own_root_one_category
                  (withMessage (NewUnauthenticated "token") "api") eq_refl)
           Unauthenticated).
Defined.

(** X10: a non-nil error whose chain ends in a nil cause belongs to no
    category and gets the status code 500. *)
Theorem nil_root_uncategorized (err : error) :
  err <> nil_error ->
  Cause err = nil_error ->
  (forall c, Is c err = false) /\ HTTPStatusCode err = Returned 500.
Proof.
  intros Hnil Hroot.
  assert (Hnone : forall c, Is c err = false).
  { intro c. rewrite <- Is_Cause, Hroot. apply Is_on_nil. }
  split; [exact Hnone|].
  apply is_nil_false in Hnil.
  rewrite (HTTPStatusCode_first_match err Hnil).
  rewrite (first_match_none err Hnone). reflexivity.
Qed.

Lemma nil_root_uncategorized_witness :
  foreignCauser (mkMethods None None None (Some true) None) nil_error "lost"
    <> nil_error /\
  Cause (foreignCauser (mkMethods None None None (Some true) None)
           nil_error "lost") = nil_error /\
  IsNotFound (foreignCauser (mkMethods None None None (Some true) None)
                nil_error "lost") = false /\
  HTTPStatusCode (foreignCauser (mkMethods None None None (Some true) None)
                    nil_error "lost") = Returned 500.
Proof.
  pose proof (nil_root_uncategorized
                (foreignCauser (mkMethods None None None (Some true) None)
                   nil_error "lost")
                ltac:(discriminate) eq_refl) as [Hnone Hcode].
  split; [discriminate|]. split; [reflexivity|]. split.
  - exact (Hnone NotFound).
  - exact Hcode.
Defined.
